(** * Postgres composite types for Django: a model of
      [postgres_composite_types/__init__.py]

    The development follows the module top to bottom: the value coercion
    adapter ([BaseField]), the migration operation ([BaseOperation]), the
    metaclass ([CompositeTypeMeta]) and the user-facing object
    ([CompositeType]).

    Conventions.
    - Python values are the inductive [Value]; dictionaries and the
      attribute store of an instance are finite maps keyed by strings.
    - An exception is a result [Raise e]; code that also acts on the
      process (signals, the driver, the schema editor, the logger) runs in
      the monad [Py], which threads a [World] and keeps it when an
      exception is raised.
    - Django's own fields, the driver and the receivers of the
      [composite_type_created] signal are not part of the module: a
      Django field is given by its column type and its [get_prep_value],
      a connection by what the driver answers on it, and so on.
    - An instance is the name of its class and its attribute dictionary.
      [__init__] is called the way Python binds its arguments, so a
      keyword [self] is refused; [self._meta] and [value.__to_tuple__] are
      looked up on the instance first, so an attribute of that name set by
      [__init__] hides the class attribute.
    - Left out: the names the interpreter itself keeps on every object
      ([__class__], [__dict__], [__weakref__]), which [setattr] refuses or
      redirects; the class attributes [getattr] would fall back to for a
      name the instance lacks; subclasses of declared types (a class is
      known by its name). Statements about construction say which names
      they are about.
    - The [LOGGER.debug] calls are left out. *)

From stdpp Require Import gmap strings list fin_maps.
From Stdlib Require Import ZArith.

#[local] Set Warnings "-register-all".
#[local] Open Scope string_scope.

(** ** Values and exceptions *)

Inductive Value : Type :=
| VNone
| VStr (s : string)
| VInt (z : Z)
| VTuple (items : list Value)
| VDict (d : gmap string Value)
| VInst (cls : string) (attrs : gmap string Value).

Inductive exn : Type :=
| RuntimeError (msg : string)
| TypeError (msg : string)
| AttributeError (name : string)
| ProgrammingError              (* psycopg2.ProgrammingError *)
| OtherError (cls : string).    (* any exception class not named above *)

Inductive result (A : Type) : Type :=
| Ok (a : A)
| Raise (e : exn).
Arguments Ok {A} a.
Arguments Raise {A} e.

#[global] Instance result_ret : MRet result := @Ok.
#[global] Instance result_bind : MBind result := λ A B f m,
  match m with Ok a => f a | Raise e => Raise e end.
#[global] Instance result_fmap : FMap result := λ A B f m,
  match m with Ok a => Ok (f a) | Raise e => Raise e end.

(** Truth value of a tuple or of the item list of a dict. *)
Definition truthy {A} (l : list A) : bool :=
  match l with [] => false | _ :: _ => true end.

(** ** The database side *)

(** A connection: its alias, whether it is a [PostgresDatabaseWrapper], and
    what [psycopg2.extras.register_composite(name, cur, globally=True)]
    answers for a type name on a cursor of this connection. *)
Record Connection : Type := {
  alias : string;
  is_postgres : bool;
  register_outcome : string → result unit
}.

Record SchemaEditor : Type := {
  connection : Connection;
  execute_outcome : string → result unit
}.

(** ** Declared types *)

(** A field of a declared type is a Django field, known by its column type
    on a connection and its [get_prep_value], or the [Field] class of
    another composite type, known by that type's [Meta]. *)
Inductive Field : Type :=
| ModelsField (column : Connection → string) (prep : Value → result Value)
| CompositeField (Meta : Meta)
with Meta : Type :=
| Build_Meta (model : string) (db_type : string)
             (fields : list (string * Field)).

Definition model (m : Meta) : string :=
  match m with Build_Meta model _ _ => model end.
Definition db_type (m : Meta) : string :=
  match m with Build_Meta _ db_type _ => db_type end.
Definition fields (m : Meta) : list (string * Field) :=
  match m with Build_Meta _ _ fields => fields end.

(** [getattr(self, name)] on the attributes of the instance. *)
Definition getattr (self : gmap string Value) (name : string) : result Value :=
  match self !! name with
  | Some v => Ok v
  | None => Raise (AttributeError name)
  end.

Definition setattr (self : gmap string Value) (name : string) (v : Value)
  : gmap string Value := <[name := v]> self.

(** [self._meta.fields], for an instance of a class whose metadata has the
    fields [class_fields]. An attribute [_meta] of the instance hides the
    attribute of the class; it holds a data value, which is taken to have
    no attribute [fields]. *)
Definition meta_fields (class_fields : list (string * Field))
    (self : gmap string Value) : result (list (string * Field)) :=
  match self !! "_meta" with
  | Some _ => Raise (AttributeError "fields")
  | None => Ok class_fields
  end.

(** The body of [CompositeType.__to_tuple__], given what
    [field.get_prep_value] is and the fields of the class of [self]. *)
Definition to_tuple_of (get_prep_value : Field → Value → result Value)
    (class_fields : list (string * Field)) (self : gmap string Value)
  : result (list Value) :=
  match self !! "_meta" with
  | Some _ => Raise (AttributeError "fields")
  | None =>
      mapM (λ '(name, field), v ← getattr self name; get_prep_value field v)
           class_fields
  end.

(** [field.get_prep_value(value)], for either kind of field. The second
    case is [BaseField.get_prep_value]; its instance branch calls
    [value.__to_tuple__()], which calls back into the fields. An attribute
    [__to_tuple__] of the instance hides the method and is not callable. *)
Fixpoint get_prep_value (field : Field) (value : Value) {struct field}
  : result Value :=
  match field with
  | ModelsField _ prep => prep value
  | CompositeField (Build_Meta model _ fields) =>
      match value with
      | VDict d =>
          VTuple <$> mapM (λ '(name, field),
                             get_prep_value field (default VNone (d !! name)))
                          fields
      | VInst cls self =>
          if String.eqb cls model then
            match self !! "__to_tuple__" with
            | Some _ => Raise (TypeError "object is not callable")
            | None => VTuple <$> to_tuple_of get_prep_value fields self
            end
          else Ok value
      | _ => Ok value
      end
  end.

(** ** CompositeType *)

Module CompositeType.

(** [__init__] called on a new object of the class with metadata [_meta],
    with the positional arguments [args] and the keywords [kwargs]; the
    result is the attribute dictionary of the object. The parameters are
    [self], the rest of the positional arguments and the keywords, so a
    keyword [self] cannot be bound. Each loop evaluates [self._meta.fields]
    once, before it starts. *)
Definition __init__ (_meta : Meta) (args : list Value)
    (kwargs : gmap string Value) : result (gmap string Value) :=
  match kwargs !! "self" with
  | Some _ =>
      Raise (TypeError "__init__() got multiple values for argument 'self'")
  | None =>
      if truthy args && truthy (map_to_list kwargs) then
        Raise (RuntimeError "Specify either args or kwargs but not both.")
      else
        let self : gmap string Value := ∅ in
        blank ← meta_fields (fields _meta) self;
        let self :=
          foldl (λ self '(name, _), setattr self name VNone) self blank in
        given ← meta_fields (fields _meta) self;
        let self :=
          foldl (λ self '((name, _), arg), setattr self name arg) self
                (zip given args) in
        let self :=
          foldl (λ self '(name, value), setattr self name value) self
                (map_to_list kwargs) in
        Ok self
  end.

(** Calling the class [Meta.model] with positional and keyword
    arguments. *)
Definition call (_meta : Meta) (args : list Value)
    (kwargs : gmap string Value) : result Value :=
  VInst (model _meta) <$> __init__ _meta args kwargs.

Definition __to_tuple__ (_meta : Meta) (self : gmap string Value)
  : result (list Value) :=
  to_tuple_of get_prep_value (fields _meta) self.

Definition __to_dict__ (_meta : Meta) (self : gmap string Value)
  : result (list (string * Value)) :=
  items ← meta_fields (fields _meta) self;
  mapM (λ '(name, field),
          v ← getattr self name; x ← get_prep_value field v; Ok (name, x))
       items.

End CompositeType.

(** ** BaseField *)

Module BaseField.



Definition get_prep_value (Meta : Meta) (value : Value) : result Value :=
  get_prep_value (CompositeField Meta) value.

Definition db_type (Meta : Meta) (connection : Connection) : result string :=
  if is_postgres connection then Ok (db_type Meta)
  else Raise (RuntimeError "Composite types are only available for postgres").

End BaseField.

(** [field.db_type(connection)], for either kind of field. *)
Definition field_db_type (field : Field) (connection : Connection)
  : result string :=
  match field with
  | ModelsField column _ => Ok (column connection)
  | CompositeField Meta => BaseField.db_type Meta connection
  end.

(** ** The process: signals, driver calls, log *)

(** What the module does to its surroundings, in the order it does it.
    An event is recorded when the call is made, whatever it answers. *)
Inductive Event : Type :=
| Execute (sql : string)
    (* schema_editor.execute(sql) *)
| RegisterComposite (db_type : string) (connection : string)
    (* psycopg2's register_composite(db_type, cur, globally=True) *)
| SendTypeCreated (sender : string) (connection : string)
    (* composite_type_created.send(sender, connection=connection) *)
| LogWarning (msg : string).
    (* LOGGER.warning(msg) *)

(** [receivers] is the receiver list of Django's [connection_created]
    signal, restricted to the hooks of this module: the dispatch uid and
    the class whose [database_connected] is connected.
    [type_created_receivers] is what the receivers of
    [composite_type_created] answer when they are sent a model. *)
Record World : Type := {
  receivers : list (string * Meta);
  type_created_receivers : string → result unit;
  log : list Event
}.

Definition Py (A : Type) : Type := World → result A * World.

#[global] Instance Py_ret : MRet Py := λ A a w, (Ok a, w).
#[global] Instance Py_bind : MBind Py := λ A B f m w,
  match m w with
  | (Ok a, w') => f a w'
  | (Raise e, w') => (Raise e, w')
  end.

Definition lift {A} (r : result A) : Py A := λ w, (r, w).

(** The world after the events [evs]. *)
Definition logged (w : World) (evs : list Event) : World :=
  {| receivers := receivers w;
     type_created_receivers := type_created_receivers w;
     log := log w ++ evs |}.

Definition emit (ev : Event) : Py unit := λ w, (Ok tt, logged w [ev]).

Definition set_receivers (rs : list (string * Meta)) : Py unit := λ w,
  (Ok tt, {| receivers := rs;
             type_created_receivers := type_created_receivers w;
             log := log w |}).

(** [try: body except ProgrammingError: handler] *)
Definition try_except_ProgrammingError (body handler : Py unit) : Py unit :=
  λ w, match body w with
       | (Raise ProgrammingError, w') => handler w'
       | other => other
       end.

(** [for x in xs: body(x)] *)
Fixpoint for_each {A} (xs : list A) (body : A → Py unit) : Py unit :=
  match xs with
  | [] => mret tt
  | x :: xs' => _ ← body x; for_each xs' body
  end.

Definition schema_editor_execute (schema_editor : SchemaEditor) (sql : string)
  : Py unit :=
  _ ← emit (Execute sql); lift (execute_outcome schema_editor sql).

Definition LOGGER_warning (msg : string) : Py unit := emit (LogWarning msg).

Definition composite_type_created_send (sender : string)
    (connection : Connection) : Py unit :=
  _ ← emit (SendTypeCreated sender (alias connection));
  (λ w, (type_created_receivers w sender, w)) : Py unit.

(** [Signal.connect] with a [dispatch_uid]: a receiver is appended unless
    one is connected under the same uid. *)
Definition connection_created_connect (receiver : Meta) (dispatch_uid : string)
  : Py unit := λ w,
  if bool_decide (dispatch_uid ∈ (receivers w).*1) then (Ok tt, w)
  else set_receivers (receivers w ++ [(dispatch_uid, receiver)]) w.

(** [Signal.disconnect] with a [dispatch_uid]: the first receiver connected
    under that uid is removed. *)
Fixpoint remove_receiver (dispatch_uid : string) (rs : list (string * Meta))
  : list (string * Meta) :=
  match rs with
  | [] => []
  | (uid, r) :: rs' =>
      if String.eqb uid dispatch_uid then rs'
      else (uid, r) :: remove_receiver dispatch_uid rs'
  end.

Definition connection_created_disconnect (dispatch_uid : string) : Py unit :=
  λ w, set_receivers (remove_receiver dispatch_uid (receivers w)) w.

(** ** CompositeTypeMeta *)

(** What a class body binds a name to, as far as the metaclass tells the
    values apart: a [RelatedField], any other [models.Field], or another
    object, which has an attribute [db_type] or not. *)
Inductive ClassAttr : Type :=
| RelatedFieldAttr
| FieldAttr (field : Field)
| ObjectAttr (db_type : option string).

(** The class the metaclass returns: [CompositeType] itself, or a declared
    type with its [_meta]. *)
Inductive Class : Type :=
| BaseClass
| DeclaredType (_meta : Meta).

(** [attrs.pop(key)] and [attrs.pop(key, default)] on the ordered class
    dictionary. *)
Fixpoint dict_pop (key : string) (attrs : list (string * ClassAttr))
  : list (string * ClassAttr) :=
  match attrs with
  | [] => []
  | (k, v) :: attrs' =>
      if String.eqb k key then attrs' else (k, v) :: dict_pop key attrs'
  end.

Fixpoint dict_get (key : string) (attrs : list (string * ClassAttr))
  : option ClassAttr :=
  match attrs with
  | [] => None
  | (k, v) :: attrs' => if String.eqb k key then Some v else dict_get key attrs'
  end.

Module CompositeTypeMeta.

(** The loop of [__new__] over [attrs.copy().items()]: [items] is what is
    left of the copy, [fields] and [attrs] are the list and the
    dictionary being updated. [set_attributes_from_name] only names the
    field object and is not modelled. *)
Fixpoint collect_fields (items : list (string * ClassAttr))
    (fields : list (string * Field)) (attrs : list (string * ClassAttr))
  : result (list (string * Field) * list (string * ClassAttr)) :=
  match items with
  | [] => Ok (fields, attrs)
  | (field_name, value) :: items' =>
      match value with
      | RelatedFieldAttr =>
          Raise (TypeError "Composite types cannot contain related fields")
      | FieldAttr field =>
          collect_fields items' (fields ++ [(field_name, field)])
                         (dict_pop field_name attrs)
      | ObjectAttr _ => collect_fields items' fields attrs
      end
  end.

Definition __new__ (name : string) (attrs : list (string * ClassAttr))
  : result Class :=
  if String.eqb name "CompositeType" then Ok BaseClass
  else
    '(fields, attrs) ← collect_fields attrs [] attrs;
    let meta_obj := default (ObjectAttr None) (dict_get "Meta" attrs) in
    match meta_obj with
    | ObjectAttr (Some db_type) =>
        Ok (DeclaredType (Build_Meta name db_type fields))
    | _ => Raise (TypeError "Meta.db_type is required.")
    end.

(** [register_composite(cls, connection)] *)
Definition register_composite (cls : Meta) (connection : Connection)
  : Py unit :=
  _ ← emit (RegisterComposite (db_type cls) (alias connection));
  lift (register_outcome connection (db_type cls)).

(** [database_connected(cls, signal, sender, connection)] *)
Definition database_connected (cls : Meta) (connection : Connection)
  : Py unit :=
  _ ← (if is_postgres connection then
         try_except_ProgrammingError
           (register_composite cls connection)
           (LOGGER_warning
              ("Failed to register composite %s. This might be because "
               ++ "the migration to register it has not run yet"))
       else mret tt);
  connection_created_disconnect (db_type cls).

Definition __init__ (cls : Class) (name : string) : Py unit :=
  if String.eqb name "CompositeType" then mret tt
  else
    match cls with
    | DeclaredType _meta =>
        connection_created_connect _meta (db_type _meta)
    | BaseClass => lift (Raise (AttributeError "db_type"))
    end.

End CompositeTypeMeta.

(** A class statement [class name(CompositeType): attrs]: the metaclass is
    called, which runs [__new__] and then [__init__]. *)
Definition class_statement (name : string) (attrs : list (string * ClassAttr))
  : Py Class :=
  cls ← lift (CompositeTypeMeta.__new__ name attrs);
  _ ← CompositeTypeMeta.__init__ cls name;
  mret cls.

(** Django sending [connection_created] for a new connection: every
    receiver connected when the signal is sent is called in turn. *)
Definition connection_created_send (connection : Connection) : Py unit :=
  λ w, for_each (receivers w)
         (λ '(_, cls), CompositeTypeMeta.database_connected cls connection) w.

(** The process opening the connections [conns] one after the other; an
    exception that escapes a receiver goes to whoever opened the
    connection, and the process goes on. *)
Definition open_connections (conns : list Connection) (w : World) : World :=
  foldl (λ w connection, (connection_created_send connection w).2) w conns.

(** ** BaseOperation *)

Module BaseOperation.

Definition describe (Meta : Meta) : string :=
  "Creates type " ++ db_type Meta.

(** The statement built by [database_forwards]. *)
Definition create_type_sql (Meta : Meta) (connection : Connection)
  : result string :=
  fields ← mapM (λ '(name, field),
                   t ← field_db_type field connection; Ok (name ++ " " ++ t))
                (fields Meta);
  Ok (String.concat " "
        ["CREATE TYPE"; db_type Meta;
         "AS (" ++ String.concat ", " fields ++ ")"]).

Definition database_forwards (Meta : Meta) (schema_editor : SchemaEditor)
  : Py unit :=
  sql ← lift (create_type_sql Meta (connection schema_editor));
  _ ← schema_editor_execute schema_editor sql;
  _ ← CompositeTypeMeta.register_composite Meta (connection schema_editor);
  composite_type_created_send (model Meta) (connection schema_editor).

Definition database_backwards (Meta : Meta) (schema_editor : SchemaEditor)
  : Py unit :=
  schema_editor_execute schema_editor ("DROP TYPE " ++ db_type Meta).

End BaseOperation.

(** ** Example declarations *)

(** A field with column type [text] whose [get_prep_value] returns its
    argument. *)
Definition text_field : Field := ModelsField (λ _, "text") Ok.

Definition address : Meta :=
  Build_Meta "Address" "address"
             [("street", text_field); ("city", text_field)].

(** A type with a field of the composite type [address]. *)
Definition person : Meta :=
  Build_Meta "Person" "person"
             [("name", text_field); ("home", CompositeField address)].

Definition main_st : gmap string Value :=
  <["street" := VStr "Main St"]> (<["city" := VStr "Springfield"]> ∅).


(** Connections: the type exists on the server; it does not exist yet; the
    server fails in another way; another backend. *)
Definition pg_ready : Connection :=
  {| alias := "default"; is_postgres := true;
     register_outcome := λ _, Ok tt |}.
Definition pg_unmigrated : Connection :=
  {| alias := "default"; is_postgres := true;
     register_outcome := λ _, Raise ProgrammingError |}.
Definition pg_failing : Connection :=
  {| alias := "default"; is_postgres := true;
     register_outcome := λ _, Raise (OtherError "OperationalError") |}.
Definition sqlite : Connection :=
  {| alias := "other"; is_postgres := false;
     register_outcome := λ _, Raise (OtherError "AttributeError") |}.

Definition editor (connection : Connection) : SchemaEditor :=
  {| connection := connection; execute_outcome := λ _, Ok tt |}.

Definition fresh_process : World :=
  {| receivers := []; type_created_receivers := λ _, Ok tt; log := [] |}.

Definition address_body : list (string * ClassAttr) :=
  [("street", FieldAttr text_field); ("city", FieldAttr text_field);
   ("Meta", ObjectAttr (Some "address"))].


Definition shadowing : Meta :=
  Build_Meta "Shadowing" "shadowing"
             [("_meta", text_field); ("note", text_field)].

(** The process after the class statement of [Address]. *)
Definition address_declared : World :=
  (class_statement "Address" address_body fresh_process).2.

(** ** Statements *)

(** The object built from positional arguments alone. *)
Definition positional_object (_meta : Meta) (args : list Value)
  : gmap string Value :=
  foldl (λ self '((name, _), arg), setattr self name arg)
        (foldl (λ self '(name, _), setattr self name VNone) ∅ (fields _meta))
        (zip (fields _meta) args).

(** The object built from positional arguments and keywords. *)
Definition constructed_object (_meta : Meta) (args : list Value)
    (kwargs : gmap string Value) : gmap string Value :=
  foldl (λ self '(name, value), setattr self name value)
        (positional_object _meta args) (map_to_list kwargs).

(** The names the interpreter keeps on every object. *)
Definition unassignable : list string :=
  ["__class__"; "__dict__"; "__weakref__"].

(** No field of the type is named [_meta] or has a name the interpreter
    keeps. *)
Definition constructible (_meta : Meta) : Prop :=
  Forall (λ name, name ∉ (fields _meta).*1) ("_meta" :: unassignable).





(** The class statement raises. *)
Definition declaration_raises (name : string)
    (attrs : list (string * ClassAttr)) (w : World) : Prop :=
  ∃ e, (class_statement name attrs w).1 = Raise e.


(** The number of calls of the driver's [register_composite] for the type
    name [t] among the events [evs]. *)
Definition is_registration (t : string) (ev : Event) : bool :=
  match ev with
  | RegisterComposite db_type _ => String.eqb db_type t
  | _ => false
  end.

Definition registrations (t : string) (evs : list Event) : nat :=
  length (List.filter (is_registration t) evs).

(** The hooks connected to [connection_created] as the class statements
    leave them: at most one per dispatch uid, which is the type name of the
    class. *)
Definition hooks_wf (w : World) : Prop :=
  NoDup (receivers w).*1
  ∧ Forall (λ r, r.1 = db_type r.2) (receivers w).

(** The hook of [cls] is no longer connected once it has run on
    [connection]. *)
Definition hook_disconnected_after (cls : Meta) (connection : Connection)
    (w : World) : Prop :=
  db_type cls ∉
    (receivers (CompositeTypeMeta.database_connected cls connection w).2).*1.

(** Opening the connections [conns] adds at most one registration of the
    type name [t]. *)
Definition registers_at_most_once (t : string) (conns : list Connection)
    (w : World) : Prop :=
  (registrations t (log (open_connections conns w))
   ≤ registrations t (log w) + 1)%nat.

(** On [connection], a hook for the type name [t] does not register, or
    the driver registers the type, or the driver raises
    [ProgrammingError]. *)
Definition settles (t : string) (connection : Connection) : Prop :=
  is_postgres connection = false
  ∨ register_outcome connection t = Ok tt
  ∨ register_outcome connection t = Raise ProgrammingError.

(** Registrations made so far, plus one while the hook for [t] is still
    connected: opening a connection never makes this larger when the hook
    settles. *)
Definition potential (t : string) (w : World) : nat :=
  (registrations t (log w)
   + if bool_decide (t ∈ (receivers w).*1) then 1 else 0)%nat.

(** The fields a class body declares, in the order of the body. *)
Definition declared_fields (attrs : list (string * ClassAttr))
  : list (string * Field) :=
  omap (λ '(name, value),
          match value with FieldAttr field => Some (name, field) | _ => None end)
       attrs.

(** The world with no hook connected. *)
Definition without_hooks (w : World) : World :=
  {| receivers := [];
     type_created_receivers := type_created_receivers w;
     log := log w |}.

(** * Properties *)

(** ** The three loops of [CompositeType.__init__] *)

Section init_loops.
Implicit Types (self : gmap string Value) (name : string).

Lemma blank_lookup_notin (fs : list (string * Field)) self name :
  name ∉ fs.*1 →
  foldl (λ self '(name, _), setattr self name VNone) self fs !! name
  = self !! name.
Proof.
  revert self. induction fs as [|[n f] fs IH]; intros self Hn; [done|].
  simpl in *. apply not_elem_of_cons in Hn as [Hne Hn].
  rewrite IH by done. unfold setattr. by rewrite lookup_insert_ne.
Qed.

Lemma blank_lookup_in (fs : list (string * Field)) self name :
  name ∈ fs.*1 →
  foldl (λ self '(name, _), setattr self name VNone) self fs !! name
  = Some VNone.
Proof.
  revert self. induction fs as [|[n f] fs IH]; intros self Hin; simpl in *.
  - by apply elem_of_nil in Hin.
  - destruct (decide (name ∈ fs.*1)) as [Hfs|Hfs]; [by apply IH|].
    apply elem_of_cons in Hin as [->|?]; [|done].
    rewrite blank_lookup_notin by done. apply lookup_insert_eq.
Qed.

Lemma positional_lookup_notin (fs : list (string * Field)) args self name :
  name ∉ fs.*1 →
  foldl (λ self '((name, _), arg), setattr self name arg) self (zip fs args)
    !! name = self !! name.
Proof.
  revert args self.
  induction fs as [|[n f] fs IH]; intros [|a args] self Hn; try done.
  simpl in *. apply not_elem_of_cons in Hn as [Hne Hn].
  rewrite IH by done. unfold setattr. by rewrite lookup_insert_ne.
Qed.

Lemma positional_lookup (fs : list (string * Field)) args self i name field :
  NoDup fs.*1 →
  fs !! i = Some (name, field) →
  foldl (λ self '((name, _), arg), setattr self name arg) self (zip fs args)
    !! name
  = match args !! i with Some arg => Some arg | None => self !! name end.
Proof.
  revert args self i.
  induction fs as [|[n f] fs IH]; intros args self i Hnd Hi; [done|].
  simpl in Hnd. apply NoDup_cons in Hnd as [Hn Hnd].
  destruct args as [|a args].
  { by destruct i. }
  destruct i as [|i]; simpl in *.
  - injection Hi as -> ->.
    rewrite positional_lookup_notin by done. apply lookup_insert_eq.
  - rewrite (IH _ _ i) by done.
    destruct (args !! i); [done|].
    unfold setattr. rewrite lookup_insert_ne; [done|].
    intros ->. apply Hn.
    apply list_elem_of_fmap. exists (name, field). split; [done|].
    by eapply list_elem_of_lookup_2.
Qed.




End init_loops.


(** ** Construction *)

Lemma constructible_meta (_meta : Meta) :
  constructible _meta → "_meta" ∉ (fields _meta).*1.
Proof. intros H. by apply Forall_cons in H as [H _]. Qed.


(** [__init__] when no keyword is [self], no field is named [_meta], and
    the arguments are not of both kinds. *)
Lemma init_constructed (_meta : Meta) (args : list Value)
    (kwargs : gmap string Value) :
  "_meta" ∉ (fields _meta).*1 →
  kwargs !! "self" = None →
  truthy args && truthy (map_to_list kwargs) = false →
  CompositeType.__init__ _meta args kwargs
  = Ok (constructed_object _meta args kwargs).
Proof.
  intros Hmeta Hself Hkinds. unfold CompositeType.__init__.
  rewrite Hself, Hkinds. unfold meta_fields.
  rewrite lookup_empty. simpl.
  rewrite blank_lookup_notin by done. by rewrite lookup_empty.
Qed.

(** [__init__] when a field is named [_meta]: the first loop sets the
    attribute, and the second finds it in place of the metadata. *)
Lemma init_shadowed (_meta : Meta) (args : list Value)
    (kwargs : gmap string Value) :
  "_meta" ∈ (fields _meta).*1 →
  kwargs !! "self" = None →
  truthy args && truthy (map_to_list kwargs) = false →
  CompositeType.__init__ _meta args kwargs = Raise (AttributeError "fields").
Proof.
  intros Hmeta Hself Hkinds. unfold CompositeType.__init__.
  rewrite Hself, Hkinds. unfold meta_fields.
  rewrite lookup_empty. simpl.
  by rewrite blank_lookup_in.
Qed.





Lemma init_positional_object (_meta : Meta) (args : list Value) :
  "_meta" ∉ (fields _meta).*1 →
  CompositeType.__init__ _meta args ∅ = Ok (positional_object _meta args).
Proof.
  intros Hmeta.
  rewrite (init_constructed _meta args ∅ Hmeta).
  - unfold constructed_object. by rewrite map_to_list_empty.
  - apply lookup_empty.
  - rewrite map_to_list_empty. apply andb_false_r.
Qed.

Lemma positional_object_lookup (_meta : Meta) (args : list Value) i name field :
  NoDup (fields _meta).*1 →
  fields _meta !! i = Some (name, field) →
  positional_object _meta args !! name = Some (default VNone (args !! i)).
Proof.
  intros Hnd Hi. unfold positional_object.
  rewrite (positional_lookup _ _ _ i name field) by done.
  destruct (args !! i); [done|]. simpl.
  apply blank_lookup_in, list_elem_of_fmap.
  exists (name, field). split; [done|]. by eapply list_elem_of_lookup_2.
Qed.

(** With one positional value for its two fields, the type with a field
    named [_meta] is not constructed: [__init__] raises. *)
Lemma init_positional_shadowed :
  NoDup (fields shadowing).*1
  ∧ CompositeType.__init__ shadowing [VStr "x"] ∅
    = Raise (AttributeError "fields").
Proof.
  split.
  - apply (bool_decide_unpack _). vm_compute. reflexivity.
  - vm_compute. reflexivity.
Qed.

(** C10, as amended. With distinct field names, none of them [_meta] or a
    name the interpreter keeps, [__init__] on positional arguments alone
    returns; the field at position [i] holds argument [i] when there is
    one and [None] otherwise, no other attribute is set, and arguments
    beyond the number of fields change nothing. *)
Theorem init_positional (_meta : Meta) (args : list Value) :
  constructible _meta →
  NoDup (fields _meta).*1 →
  ∃ self, CompositeType.__init__ _meta args ∅ = Ok self
    ∧ (∀ i name field, fields _meta !! i = Some (name, field) →
         self !! name = Some (default VNone (args !! i)))
    ∧ (∀ name, name ∉ (fields _meta).*1 → self !! name = None)
    ∧ CompositeType.__init__ _meta (take (length (fields _meta)) args) ∅
      = Ok self.
Proof.
  intros Hc Hnd. apply constructible_meta in Hc.
  exists (positional_object _meta args).
  split; [by apply init_positional_object|]. split; [|split].
  - intros i name field Hi. by eapply positional_object_lookup.
  - intros name Hn. unfold positional_object.
    by rewrite positional_lookup_notin, blank_lookup_notin.
  - rewrite init_positional_object by done. unfold positional_object.
    by rewrite zip_with_take_r.
Qed.

Lemma init_positional_witness :
  ∃ self, CompositeType.__init__ address [VStr "Main St"] ∅ = Ok self
    ∧ (∀ i name field, fields address !! i = Some (name, field) →
         self !! name = Some (default VNone ([VStr "Main St"] !! i)))
    ∧ (∀ name, name ∉ (fields address).*1 → self !! name = None)
    ∧ CompositeType.__init__ address
        (take (length (fields address)) [VStr "Main St"]) ∅ = Ok self.
Proof.
  apply (init_positional address [VStr "Main St"]).
  - apply (bool_decide_unpack _). vm_compute. reflexivity.
  - apply (bool_decide_unpack _). vm_compute. reflexivity.
Defined.

(** ** Tuples built field by field *)

Section mapM_result.
Context {A B : Type}.
Implicit Types (f g : A → result B) (l : list A).

Lemma mapM_result_ext f g l :
  Forall (λ x, f x = g x) l → mapM f l = mapM g l.
Proof.
  induction 1 as [|x l Hx _ IH]; [done|].
  simpl. by rewrite Hx, IH.
Qed.

Lemma mapM_result_Ok f l ys :
  mapM f l = Ok ys ↔ Forall2 (λ x y, f x = Ok y) l ys.
Proof.
  split.
  - revert ys. induction l as [|x l IH]; intros ys Hm; simpl in Hm.
    + injection Hm as <-. constructor.
    + destruct (f x) as [y|e] eqn:Hx; [|done]. simpl in Hm.
      destruct (mapM f l) as [ys'|e]; [|done]. simpl in Hm.
      injection Hm as <-. constructor; auto.
  - induction 1 as [|x y l ys Hx _ IH]; [done|].
    simpl. by rewrite Hx, IH.
Qed.

End mapM_result.

Lemma to_tuple_unshadowed (_meta : Meta) (self : gmap string Value) :
  self !! "_meta" = None →
  CompositeType.__to_tuple__ _meta self
  = mapM (λ '(name, field), v ← getattr self name; get_prep_value field v)
         (fields _meta).
Proof.
  intros Hnone. unfold CompositeType.__to_tuple__, to_tuple_of.
  by rewrite Hnone.
Qed.

(** [get_prep_value] on an instance of the model is the call of
    [__to_tuple__] on it. *)
Lemma get_prep_value_instance (_meta : Meta) (self : gmap string Value) :
  BaseField.get_prep_value _meta (VInst (model _meta) self)
  = match self !! "__to_tuple__" with
    | Some _ => Raise (TypeError "object is not callable")
    | None => VTuple <$> CompositeType.__to_tuple__ _meta self
    end.
Proof.
  unfold BaseField.get_prep_value, CompositeType.__to_tuple__.
  destruct _meta as [m t fs]. simpl. by rewrite String.eqb_refl.
Qed.









(** ** The migration operation *)

Lemma getattr_Some (self : gmap string Value) (name : string) (v : Value) :
  self !! name = Some v → getattr self name = Ok v.
Proof. unfold getattr. by intros ->. Qed.

Lemma logged_logged (w : World) (evs evs' : list Event) :
  logged (logged w evs) evs' = logged w (evs ++ evs').
Proof. unfold logged. simpl. by rewrite <- (assoc_L (++)). Qed.

(** [database_forwards] once the statement is built: each call is made
    after the one before it has returned. *)
Lemma database_forwards_cases (Meta : Meta) (schema_editor : SchemaEditor)
    (w : World) (sql : string) :
  BaseOperation.create_type_sql Meta (connection schema_editor) = Ok sql →
  BaseOperation.database_forwards Meta schema_editor w
  = let execute := Execute sql in
    let register :=
      RegisterComposite (db_type Meta) (alias (connection schema_editor)) in
    let send :=
      SendTypeCreated (model Meta) (alias (connection schema_editor)) in
    match execute_outcome schema_editor sql with
    | Raise e => (Raise e, logged w [execute])
    | Ok _ =>
        match register_outcome (connection schema_editor) (db_type Meta) with
        | Raise e => (Raise e, logged w [execute; register])
        | Ok _ =>
            (type_created_receivers w (model Meta),
             logged w [execute; register; send])
        end
    end.
Proof.
  intros Hsql.
  unfold BaseOperation.database_forwards, schema_editor_execute,
    CompositeTypeMeta.register_composite, composite_type_created_send,
    emit, lift, mbind, Py_bind.
  rewrite Hsql. simpl.
  destruct (execute_outcome schema_editor sql) as [[]|e]; [|done].
  destruct (register_outcome _ _) as [[]|e];
    repeat (rewrite logged_logged; simpl); [|done].
  by destruct (type_created_receivers w (model Meta)) as [[]|e].
Qed.

Lemma create_type_sql_spec (Meta : Meta) (connection : Connection)
    (ts : list string) :
  Forall2 (λ nf t, field_db_type nf.2 connection = Ok t) (fields Meta) ts →
  BaseOperation.create_type_sql Meta connection
  = Ok ("CREATE TYPE " ++ db_type Meta ++ " AS ("
        ++ String.concat ", "
             (zip_with (λ nf t, nf.1 ++ " " ++ t) (fields Meta) ts)
        ++ ")").
Proof.
  intros Hts. unfold BaseOperation.create_type_sql.
  assert (mapM (λ '(name, field),
                  t ← field_db_type field connection; Ok (name ++ " " ++ t))
               (fields Meta)
          = Ok (zip_with (λ nf t, nf.1 ++ " " ++ t) (fields Meta) ts)) as ->.
  { apply mapM_result_Ok. induction Hts as [|[n f] t fs ts Ht _ IH].
    - constructor.
    - simpl in *. constructor; [|done]. by rewrite Ht. }
  reflexivity.
Qed.

(** C9. When the statement can be built, [database_forwards] makes its
    calls in the order execute, register, send and stops at the first one
    that raises; it returns only after all three, and does return when
    none raises. The statement is [CREATE TYPE] on the type name and the
    fields in order, each with its database type; when a field has no
    database type on the connection, the exception is raised before any
    call. [database_backwards] makes the single call that executes
    [DROP TYPE] on the type name. *)
Theorem migration_steps (Meta : Meta) (schema_editor : SchemaEditor)
    (w : World) :
  let conn := connection schema_editor in
  let forwards := BaseOperation.database_forwards Meta schema_editor w in
  (∀ sql, BaseOperation.create_type_sql Meta conn = Ok sql →
     let steps := [Execute sql;
                   RegisterComposite (db_type Meta) (alias conn);
                   SendTypeCreated (model Meta) (alias conn)] in
     (∃ n, 0 < n ∧ forwards.2 = logged w (take n steps))
     ∧ (forwards.1 = Ok tt → forwards.2 = logged w steps)
     ∧ (execute_outcome schema_editor sql = Ok tt →
        register_outcome conn (db_type Meta) = Ok tt →
        type_created_receivers w (model Meta) = Ok tt →
        forwards = (Ok tt, logged w steps)))
  ∧ (∀ ts, Forall2 (λ nf t, field_db_type nf.2 conn = Ok t) (fields Meta) ts →
       BaseOperation.create_type_sql Meta conn
       = Ok ("CREATE TYPE " ++ db_type Meta ++ " AS ("
             ++ String.concat ", "
                  (zip_with (λ nf t, nf.1 ++ " " ++ t) (fields Meta) ts)
             ++ ")"))
  ∧ (∀ e, BaseOperation.create_type_sql Meta conn = Raise e →
       forwards = (Raise e, w))
  ∧ BaseOperation.database_backwards Meta schema_editor w
    = (execute_outcome schema_editor ("DROP TYPE " ++ db_type Meta),
       logged w [Execute ("DROP TYPE " ++ db_type Meta)]).
Proof.
  intros conn forwards. split; [|split; [|split]].
  - intros sql Hsql steps. subst forwards steps conn.
    rewrite (database_forwards_cases _ _ _ _ Hsql). simpl.
    destruct (execute_outcome schema_editor sql) as [[]|e].
    2:{ split; [exists 1; split; [lia|done]|]. by split. }
    destruct (register_outcome _ _) as [[]|e].
    2:{ split; [exists 2; split; [lia|done]|]. by split. }
    split; [exists 3; split; [lia|done]|]. split; [done|].
    by intros _ _ ->.
  - apply create_type_sql_spec.
  - intros e He. subst forwards conn.
    unfold BaseOperation.database_forwards, lift, mbind, Py_bind.
    by rewrite He.
  - reflexivity.
Qed.

Lemma migration_steps_witness :
  BaseOperation.database_forwards address (editor pg_ready) fresh_process
  = (Ok tt,
     logged fresh_process
       [Execute "CREATE TYPE address AS (street text, city text)";
        RegisterComposite "address" "default";
        SendTypeCreated "Address" "default"]).
Proof.
  pose proof (migration_steps address (editor pg_ready) fresh_process) as H.
  cbv zeta in H. destruct H as [H _].
  apply (H "CREATE TYPE address AS (street text, city text)"); reflexivity.
Defined.

(** C3. A type named [address] in the database with the fields [street]
    and [city], both of database type [text] and both preparing the two
    strings below as they are: the statement executed by the forward
    migration, the object built from the two positional values, and the
    storage tuple of that object, as [__to_tuple__] computes it and as the
    field adapter gets it from the instance. *)
Theorem address_example (name : string) (street city : Field)
    (schema_editor : SchemaEditor) (w : World) :
  let Meta := Build_Meta name "address" [("street", street); ("city", city)] in
  field_db_type street (connection schema_editor) = Ok "text" →
  field_db_type city (connection schema_editor) = Ok "text" →
  get_prep_value street (VStr "Main St") = Ok (VStr "Main St") →
  get_prep_value city (VStr "Springfield") = Ok (VStr "Springfield") →
  BaseOperation.create_type_sql Meta (connection schema_editor)
  = Ok "CREATE TYPE address AS (street text, city text)"
  ∧ (∃ rest,
       log (BaseOperation.database_forwards Meta schema_editor w).2
       = (log w
          ++ Execute "CREATE TYPE address AS (street text, city text)" :: rest)%list
       ∧ ∀ sql, Execute sql ∉ rest)
  ∧ ∃ self,
      CompositeType.call Meta [VStr "Main St"; VStr "Springfield"] ∅
      = Ok (VInst name self)
      ∧ self !! "street" = Some (VStr "Main St")
      ∧ self !! "city" = Some (VStr "Springfield")
      ∧ dom self = {[ "street"; "city" ]}
      ∧ CompositeType.__to_tuple__ Meta self
        = Ok [VStr "Main St"; VStr "Springfield"]
      ∧ BaseField.get_prep_value Meta (VInst name self)
        = Ok (VTuple [VStr "Main St"; VStr "Springfield"]).
Proof.
  intros Meta Hs Hc Hps Hpc.
  assert (BaseOperation.create_type_sql Meta (connection schema_editor)
          = Ok "CREATE TYPE address AS (street text, city text)") as Hsql.
  { unfold BaseOperation.create_type_sql. simpl. by rewrite Hs, Hc. }
  split; [done|]. split.
  - rewrite (database_forwards_cases _ _ _ _ Hsql). simpl.
    destruct (execute_outcome schema_editor _) as [[]|e].
    2:{ exists []. split; [done|]. intros sql H. by apply elem_of_nil in H. }
    destruct (register_outcome _ _) as [[]|e].
    all: eexists; (split; [done|]).
    all: intros sql H; repeat (apply elem_of_cons in H as [H|H]; [done|]).
    all: by apply elem_of_nil in H.
  - set (self := positional_object Meta [VStr "Main St"; VStr "Springfield"]).
    assert (self !! "street" = Some (VStr "Main St")) as Hstreet.
    { unfold self, positional_object, setattr. simpl.
      by rewrite lookup_insert_ne, lookup_insert_eq. }
    assert (self !! "city" = Some (VStr "Springfield")) as Hcity.
    { unfold self, positional_object, setattr. simpl.
      by rewrite lookup_insert_eq. }
    assert (self !! "_meta" = None) as Hmeta.
    { unfold self, positional_object, setattr. simpl.
      by rewrite !lookup_insert_ne. }
    assert (self !! "__to_tuple__" = None) as Hcall.
    { unfold self, positional_object, setattr. simpl.
      by rewrite !lookup_insert_ne. }
    assert (CompositeType.__to_tuple__ Meta self
            = Ok [VStr "Main St"; VStr "Springfield"]) as Htuple.
    { rewrite to_tuple_unshadowed by done. simpl.
      rewrite (getattr_Some _ _ _ Hstreet), (getattr_Some _ _ _ Hcity).
      simpl. rewrite Hps. simpl. by rewrite Hpc. }
    exists self. split.
    { unfold CompositeType.call. rewrite init_positional_object; [done|].
      simpl. intros Hin.
      repeat (apply elem_of_cons in Hin as [Hin|Hin]; [discriminate|]).
      by apply elem_of_nil in Hin. }
    do 2 (split; [done|]). split; [|split; [done|]].
    + unfold self, positional_object, setattr. simpl.
      rewrite !dom_insert_L, dom_empty_L. set_solver.
    + pose proof (get_prep_value_instance Meta self) as Hget.
      simpl in Hget. rewrite Hget, Hcall. simpl.
      by rewrite Htuple.
Qed.

Lemma address_example_witness :
  BaseOperation.create_type_sql address (connection (editor pg_ready))
  = Ok "CREATE TYPE address AS (street text, city text)"
  ∧ (∃ rest,
       log (BaseOperation.database_forwards address (editor pg_ready)
              fresh_process).2
       = (log fresh_process
          ++ Execute "CREATE TYPE address AS (street text, city text)" :: rest)%list
       ∧ ∀ sql, Execute sql ∉ rest)
  ∧ ∃ self,
      CompositeType.call address [VStr "Main St"; VStr "Springfield"] ∅
      = Ok (VInst "Address" self)
      ∧ self !! "street" = Some (VStr "Main St")
      ∧ self !! "city" = Some (VStr "Springfield")
      ∧ dom self = {[ "street"; "city" ]}
      ∧ CompositeType.__to_tuple__ address self
        = Ok [VStr "Main St"; VStr "Springfield"]
      ∧ BaseField.get_prep_value address (VInst "Address" self)
        = Ok (VTuple [VStr "Main St"; VStr "Springfield"]).
Proof.
  apply (address_example "Address" text_field text_field (editor pg_ready)
           fresh_process); reflexivity.
Defined.

(** ** Class statements *)

Lemma class_statement_raises (name : string)
    (attrs : list (string * ClassAttr)) (w : World) (e : exn) :
  CompositeTypeMeta.__new__ name attrs = Raise e →
  class_statement name attrs w = (Raise e, w).
Proof.
  intros Hnew. unfold class_statement, lift, mbind, Py_bind.
  by rewrite Hnew.
Qed.

Lemma collect_fields_related (items : list (string * ClassAttr)) :
  ∀ fields attrs field_name,
    (field_name, RelatedFieldAttr) ∈ items →
    CompositeTypeMeta.collect_fields items fields attrs
    = Raise (TypeError "Composite types cannot contain related fields").
Proof.
  induction items as [|[k v] items IH]; intros fields attrs field_name Hin.
  { by apply elem_of_nil in Hin. }
  destruct v as [|field|db]; simpl; [done| |].
  all: apply elem_of_cons in Hin as [Heq|Hin]; [done|by eapply IH].
Qed.

Lemma collect_fields_raises (items : list (string * ClassAttr)) :
  ∀ fields attrs e,
    CompositeTypeMeta.collect_fields items fields attrs = Raise e →
    e = TypeError "Composite types cannot contain related fields".
Proof.
  induction items as [|[k a] items IH]; intros fields attrs e Hc; [done|].
  simpl in Hc. destruct a; [by injection Hc as <-|by eapply IH..].
Qed.

Lemma dict_get_pop (key k : string) (attrs : list (string * ClassAttr)) :
  NoDup attrs.*1 →
  dict_get key (dict_pop k attrs)
  = if String.eqb k key then None else dict_get key attrs.
Proof.
  induction attrs as [|[k' v] attrs IH]; intros Hnd; simpl.
  { by destruct (String.eqb k key). }
  simpl in Hnd. apply NoDup_cons in Hnd as [Hk' Hnd].
  destruct (String.eqb k' k) eqn:Hk'k.
  - apply String.eqb_eq in Hk'k as ->.
    destruct (String.eqb k key) eqn:Hkey; [|done].
    apply String.eqb_eq in Hkey as ->.
    clear IH. induction attrs as [|[k'' v''] attrs IH]; [done|].
    simpl in *. apply not_elem_of_cons in Hk' as [Hne Hk'].
    apply NoDup_cons in Hnd as [_ Hnd].
    destruct (String.eqb k'' key) eqn:Heq; [|by apply IH].
    by apply String.eqb_eq in Heq.
  - simpl. rewrite IH by done.
    destruct (String.eqb k' key) eqn:Hk'key; [|done].
    apply String.eqb_eq in Hk'key as ->.
    by rewrite String.eqb_sym, Hk'k.
Qed.

Lemma dict_pop_NoDup (k : string) (attrs : list (string * ClassAttr)) :
  NoDup attrs.*1 → NoDup (dict_pop k attrs).*1.
Proof.
  induction attrs as [|[k' v] attrs IH]; intros Hnd; [done|].
  simpl in *. apply NoDup_cons in Hnd as [Hk' Hnd].
  destruct (String.eqb k' k); [done|].
  simpl. apply NoDup_cons. split; [|by apply IH].
  intros Hin. apply Hk'. clear -Hin.
  induction attrs as [|[k'' v''] attrs IH]; [done|].
  simpl in *. destruct (String.eqb k'' k).
  - by apply list_elem_of_further.
  - simpl in Hin. apply elem_of_cons in Hin as [->|Hin].
    + apply list_elem_of_here.
    + by apply list_elem_of_further, IH.
Qed.

(** Popping the fields leaves what [attrs] binds [key] to, unless that was
    a field. *)
Lemma collect_fields_get (key : string) (items : list (string * ClassAttr)) :
  ∀ fields attrs fields' attrs' v,
    NoDup attrs.*1 →
    CompositeTypeMeta.collect_fields items fields attrs = Ok (fields', attrs') →
    dict_get key attrs' = Some v → dict_get key attrs = Some v.
Proof.
  induction items as [|[k a] items IH];
    intros fields attrs fields' attrs' v Hnd Hc Hget; simpl in Hc.
  { by injection Hc as <- <-. }
  destruct a as [|field|db]; [done| |by eapply IH].
  specialize (IH _ _ _ _ _ (dict_pop_NoDup k _ Hnd) Hc Hget).
  rewrite dict_get_pop in IH by done.
  by destruct (String.eqb k key).
Qed.

(** A class that is itself named [CompositeType] is created as the base
    class is, without a look at its body: no [db_type] is asked for. *)
Lemma base_name_skips_db_type :
  ¬ declaration_raises "CompositeType"
      [("street", FieldAttr text_field); ("Meta", ObjectAttr None)]
      fresh_process.
Proof. intros [e He]. vm_compute in He. discriminate. Qed.

(** C4, as amended. A class statement for a class with any name but
    [CompositeType] whose body binds [Meta] to no object with a [db_type]
    raises [TypeError] and leaves the process as it was. *)
Theorem declaration_requires_db_type (name : string)
    (attrs : list (string * ClassAttr)) (w : World) :
  name ≠ "CompositeType" →
  NoDup attrs.*1 →
  (∀ db_type, dict_get "Meta" attrs ≠ Some (ObjectAttr (Some db_type))) →
  ∃ msg, class_statement name attrs w = (Raise (TypeError msg), w).
Proof.
  intros Hname Hnd Hmeta.
  assert (∃ msg, CompositeTypeMeta.__new__ name attrs = Raise (TypeError msg))
    as [msg Hnew]; [|exists msg; by apply class_statement_raises].
  unfold CompositeTypeMeta.__new__.
  apply String.eqb_neq in Hname. rewrite Hname.
  destruct (CompositeTypeMeta.collect_fields attrs [] attrs)
    as [[fields attrs']|e] eqn:Hc; simpl.
  - destruct (dict_get "Meta" attrs') as [v|] eqn:Hget; simpl; [|by eexists].
    destruct v as [| |[db_type|]]; try by eexists.
    exfalso. apply (Hmeta db_type).
    by eapply collect_fields_get.
  - apply collect_fields_raises in Hc as ->. by eexists.
Qed.

Lemma declaration_requires_db_type_witness :
  ∃ msg,
    class_statement "Address"
      [("street", FieldAttr text_field); ("Meta", ObjectAttr None)]
      fresh_process
    = (Raise (TypeError msg), fresh_process).
Proof.
  apply declaration_requires_db_type.
  - discriminate.
  - apply (bool_decide_unpack _). vm_compute. reflexivity.
  - intros db_type. simpl. discriminate.
Defined.

(** A class that is itself named [CompositeType] is created with a
    related field in its body. *)
Lemma base_name_skips_related_field :
  ¬ declaration_raises "CompositeType"
      [("owner", RelatedFieldAttr); ("Meta", ObjectAttr (Some "address"))]
      fresh_process.
Proof. intros [e He]. vm_compute in He. discriminate. Qed.

(** C5, as amended. A class statement for a class with any name but
    [CompositeType] whose body binds some name to a related field raises
    [TypeError] and leaves the process as it was. *)
Theorem declaration_rejects_related_field (name : string)
    (attrs : list (string * ClassAttr)) (w : World) (field_name : string) :
  name ≠ "CompositeType" →
  (field_name, RelatedFieldAttr) ∈ attrs →
  class_statement name attrs w
  = (Raise (TypeError "Composite types cannot contain related fields"), w).
Proof.
  intros Hname Hin. apply class_statement_raises.
  unfold CompositeTypeMeta.__new__.
  apply String.eqb_neq in Hname. rewrite Hname.
  by rewrite (collect_fields_related _ _ _ field_name Hin).
Qed.

Lemma declaration_rejects_related_field_witness :
  class_statement "Address"
    [("street", FieldAttr text_field); ("owner", RelatedFieldAttr);
     ("Meta", ObjectAttr (Some "address"))]
    fresh_process
  = (Raise (TypeError "Composite types cannot contain related fields"),
     fresh_process).
Proof.
  apply (declaration_rejects_related_field _ _ _ "owner").
  - discriminate.
  - apply list_elem_of_further, list_elem_of_here.
Defined.

(** The field names of a declared type are distinct, as the keys of the
    class body are. *)
Lemma collect_fields_NoDup (items : list (string * ClassAttr)) :
  ∀ fields attrs fields' attrs',
    NoDup (fields.*1 ++ items.*1) →
    CompositeTypeMeta.collect_fields items fields attrs = Ok (fields', attrs') →
    NoDup fields'.*1.
Proof.
  induction items as [|[k a] items IH];
    intros fields attrs fields' attrs' Hnd Hc; simpl in *.
  { injection Hc as <- <-. by rewrite app_nil_r in Hnd. }
  destruct a as [|field|db]; [done| |].
  - eapply IH; [|done]. rewrite fmap_app. simpl.
    by rewrite <- (assoc_L (++)).
  - eapply IH; [|done].
    apply NoDup_app in Hnd as (Hf & Hdisj & Hi).
    apply NoDup_cons in Hi as [_ Hi].
    apply NoDup_app. split; [done|]. split; [|done].
    intros x Hx Hin. apply (Hdisj x Hx). by apply list_elem_of_further.
Qed.

(** X9. The field names of a declared type are distinct whenever the keys
    of the class body are. *)
Lemma new_fields_NoDup (name : string) (attrs : list (string * ClassAttr))
    (_meta : Meta) :
  NoDup attrs.*1 →
  CompositeTypeMeta.__new__ name attrs = Ok (DeclaredType _meta) →
  NoDup (fields _meta).*1.
Proof.
  intros Hnd. unfold CompositeTypeMeta.__new__.
  destruct (String.eqb name "CompositeType"); [done|].
  destruct (CompositeTypeMeta.collect_fields attrs [] attrs)
    as [[fields' attrs']|e] eqn:Hc; simpl; [|done].
  destruct (default _ _) as [| |[db|]]; try done.
  intros [= <-]. simpl.
  by apply (collect_fields_NoDup attrs [] attrs fields' attrs').
Qed.

(** ** The first-connection hook *)

Lemma registrations_app (t : string) (evs evs' : list Event) :
  registrations t (evs ++ evs')
  = (registrations t evs + registrations t evs')%nat.
Proof. unfold registrations. by rewrite List.filter_app, length_app. Qed.

Lemma remove_receiver_sublist (u : string) (rs : list (string * Meta)) :
  remove_receiver u rs `sublist_of` rs.
Proof.
  induction rs as [|[u' r] rs IH]; simpl; [done|].
  destruct (String.eqb u' u).
  - by apply sublist_cons.
  - by apply sublist_skip.
Qed.

Lemma remove_receiver_notin (u : string) (rs : list (string * Meta)) :
  NoDup rs.*1 → u ∉ (remove_receiver u rs).*1.
Proof.
  induction rs as [|[u' r] rs IH]; simpl; intros Hnd.
  { apply not_elem_of_nil. }
  apply NoDup_cons in Hnd as [Hu' Hnd].
  destruct (String.eqb u' u) eqn:Heq.
  - by apply String.eqb_eq in Heq as ->.
  - apply String.eqb_neq in Heq. simpl.
    apply not_elem_of_cons. split; [done|by apply IH].
Qed.

Lemma remove_receiver_other (u u' : string) (rs : list (string * Meta)) :
  u' ≠ u → u' ∈ rs.*1 → u' ∈ (remove_receiver u rs).*1.
Proof.
  intros Hne. induction rs as [|[u'' r] rs IH]; simpl; [done|].
  intros Hin. apply elem_of_cons in Hin as [->|Hin].
  - apply String.eqb_neq in Hne. rewrite Hne. apply list_elem_of_here.
  - destruct (String.eqb u'' u); [done|].
    simpl. by apply list_elem_of_further, IH.
Qed.

(** [database_connected], outcome by outcome. *)
Lemma database_connected_cases (cls : Meta) (connection : Connection)
    (w : World) :
  CompositeTypeMeta.database_connected cls connection w
  = let attempt := RegisterComposite (db_type cls) (alias connection) in
    let warning :=
      LogWarning ("Failed to register composite %s. This might be because "
                  ++ "the migration to register it has not run yet") in
    if is_postgres connection then
      match register_outcome connection (db_type cls) with
      | Ok _ =>
          connection_created_disconnect (db_type cls) (logged w [attempt])
      | Raise ProgrammingError =>
          connection_created_disconnect (db_type cls)
            (logged w [attempt; warning])
      | Raise e => (Raise e, logged w [attempt])
      end
    else connection_created_disconnect (db_type cls) w.
Proof.
  unfold CompositeTypeMeta.database_connected,
    CompositeTypeMeta.register_composite, try_except_ProgrammingError,
    LOGGER_warning, emit, lift, mbind, Py_bind, mret, Py_ret.
  destruct (is_postgres connection); [|done]. simpl.
  destruct (register_outcome connection (db_type cls)) as [[]|[]]; try done.
  by rewrite logged_logged.
Qed.

(** One run of a hook, seen from the type name [t]. *)
Lemma disconnect_step (t u : string) (w w0 : World) (evs : list Event) :
  receivers w0 = receivers w →
  log w0 = (log w ++ evs)%list →
  NoDup (receivers w).*1 →
  (u = t → t ∈ (receivers w).*1) →
  (registrations t evs ≤ if String.eqb u t then 1 else 0)%nat →
  let w' := (connection_created_disconnect u w0).2 in
  receivers w' `sublist_of` receivers w
  ∧ (potential t w' ≤ potential t w)%nat
  ∧ ∀ u', u' ≠ u → u' ∈ (receivers w).*1 → u' ∈ (receivers w').*1.
Proof.
  intros Hrs Hlog Hnd Hin Hevs. simpl. rewrite Hrs.
  split; [apply remove_receiver_sublist|].
  split; [|intros u' ??; by apply remove_receiver_other].
  unfold potential. simpl. rewrite Hlog, registrations_app.
  destruct (String.eqb u t) eqn:Hut.
  - apply String.eqb_eq in Hut as ->.
    rewrite (bool_decide_eq_false_2 (t ∈ (remove_receiver t _).*1))
      by by apply remove_receiver_notin.
    rewrite (bool_decide_eq_true_2 (t ∈ (receivers w).*1)) by auto.
    lia.
  - assert (registrations t evs = 0%nat) as -> by lia.
    repeat case_bool_decide; try lia.
    exfalso. match goal with H : ¬ _ |- _ => apply H end.
    eapply elem_of_sublist; [done|].
    apply fmap_sublist, remove_receiver_sublist.
Qed.

Lemma hook_step (t : string) (cls : Meta) (connection : Connection)
    (w : World) :
  NoDup (receivers w).*1 →
  (db_type cls = t → settles t connection ∧ t ∈ (receivers w).*1) →
  let w' := (CompositeTypeMeta.database_connected cls connection w).2 in
  receivers w' `sublist_of` receivers w
  ∧ (potential t w' ≤ potential t w)%nat
  ∧ ∀ u', u' ≠ db_type cls →
          u' ∈ (receivers w).*1 → u' ∈ (receivers w').*1.
Proof.
  intros Hnd Ht. rewrite database_connected_cases. cbv zeta.
  assert (db_type cls = t → t ∈ (receivers w).*1) as Hin by (intros; by apply Ht).
  assert (∀ msg,
    (registrations t [RegisterComposite (db_type cls) (alias connection);
                      LogWarning msg]
     ≤ if String.eqb (db_type cls) t then 1 else 0)%nat) as Hwarn.
  { intros msg. unfold registrations. simpl.
    by destruct (String.eqb (db_type cls) t). }
  assert ((registrations t [RegisterComposite (db_type cls) (alias connection)]
           ≤ if String.eqb (db_type cls) t then 1 else 0)%nat) as Hatt.
  { unfold registrations. simpl. by destruct (String.eqb (db_type cls) t). }
  destruct (is_postgres connection) eqn:Hpg.
  2:{ apply (disconnect_step t (db_type cls) w w []);
        [done|by rewrite app_nil_r|done..|].
      unfold registrations. simpl. lia. }
  destruct (register_outcome connection (db_type cls)) as [[]|e] eqn:Hout.
  { by eapply disconnect_step. }
  assert (e ≠ ProgrammingError →
          db_type cls ≠ t) as Hother.
  { intros He Heq. destruct (Ht Heq) as [[Hs|[Hs|Hs]] _];
      rewrite <- ?Heq in Hs; congruence. }
  destruct e; try by eapply disconnect_step.
  all: simpl; split; [done|]; split; [|done].
  all: unfold potential; simpl; rewrite registrations_app.
  all: assert (registrations t
                 [RegisterComposite (db_type cls) (alias connection)] = 0%nat)
         as -> by (unfold registrations; simpl;
                   rewrite (proj2 (String.eqb_neq _ _)); [done|by apply Hother]).
  all: lia.
Qed.

Lemma hooks_wf_sublist (w w' : World) :
  hooks_wf w → receivers w' `sublist_of` receivers w → hooks_wf w'.
Proof.
  intros [Hnd Hall] Hsub. split.
  - eapply sublist_NoDup; [done|]. by apply fmap_sublist.
  - apply Forall_forall. intros r Hr.
    eapply (proj1 (Forall_forall _ _) Hall), elem_of_sublist; done.
Qed.

(** The loop of [Signal.send] over the receivers [rs] that were connected
    when the signal was sent. *)
Lemma hooks_loop (t : string) (connection : Connection)
    (rs : list (string * Meta)) :
  ∀ w,
    NoDup rs.*1 →
    Forall (λ r, r.1 = db_type r.2) rs →
    NoDup (receivers w).*1 →
    (t ∈ rs.*1 → t ∈ (receivers w).*1) →
    settles t connection →
    let w' :=
      (for_each rs
         (λ '(_, cls), CompositeTypeMeta.database_connected cls connection)
         w).2 in
    receivers w' `sublist_of` receivers w
    ∧ (potential t w' ≤ potential t w)%nat.
Proof.
  induction rs as [|[uid cls] rs IH]; intros w Hrs Hall Hnd Hin Hs; simpl.
  { done. }
  simpl in Hrs. apply NoDup_cons in Hrs as [Huid Hrs].
  apply Forall_cons in Hall as [Hcls Hall]. simpl in Hcls. subst uid.
  destruct (hook_step t cls connection w Hnd) as (Hsub & Hpot & Hkeep).
  { intros <-. split; [done|]. apply Hin, list_elem_of_here. }
  unfold mbind, Py_bind.
  destruct (CompositeTypeMeta.database_connected cls connection w)
    as [[[]|e] w1]; simpl in *; [|done].
  destruct (IH w1) as [Hsub' Hpot']; try done.
  - eapply sublist_NoDup; [done|]. by apply fmap_sublist.
  - intros Ht. apply Hkeep.
    + by intros ->.
    + by apply Hin, list_elem_of_further.
  - split; [by etrans|lia].
Qed.

Lemma connection_created_send_potential (t : string)
    (connection : Connection) (w : World) :
  hooks_wf w →
  settles t connection →
  let w' := (connection_created_send connection w).2 in
  hooks_wf w' ∧ (potential t w' ≤ potential t w)%nat.
Proof.
  intros Hwf Hs. unfold connection_created_send.
  destruct (hooks_loop t connection (receivers w) w) as [Hsub Hpot];
    try done; try apply Hwf.
  split; [by eapply hooks_wf_sublist|done].
Qed.

Lemma open_connections_potential (t : string) (conns : list Connection) :
  ∀ w,
    hooks_wf w →
    Forall (settles t) conns →
    (potential t (open_connections conns w) ≤ potential t w)%nat.
Proof.
  induction conns as [|connection conns IH]; intros w Hwf Hall; simpl.
  { done. }
  apply Forall_cons in Hall as [Hs Hall].
  destruct (connection_created_send_potential t connection w Hwf Hs)
    as [Hwf' Hpot].
  etrans; [by apply IH|done].
Qed.

(** The hooks stay well formed through class statements. *)
Lemma class_statement_hooks_wf (name : string)
    (attrs : list (string * ClassAttr)) (w : World) :
  hooks_wf w → hooks_wf (class_statement name attrs w).2.
Proof.
  intros Hwf. unfold class_statement, lift, mbind, Py_bind.
  destruct (CompositeTypeMeta.__new__ name attrs) as [cls|e]; [|done].
  unfold CompositeTypeMeta.__init__.
  destruct (String.eqb name "CompositeType"); [done|].
  destruct cls as [|_meta]; [done|].
  unfold connection_created_connect. case_bool_decide; [done|].
  simpl. destruct Hwf as [Hnd Hall]. split; simpl.
  - rewrite fmap_app. apply NoDup_app. split; [done|].
    split; [|apply NoDup_singleton].
    intros x Hx Hin. apply list_elem_of_singleton in Hin. by subst.
  - apply Forall_app. split; [done|]. by apply Forall_singleton.
Qed.

Lemma address_declared_wf : hooks_wf address_declared.
Proof. apply class_statement_hooks_wf. split; constructor. Qed.

(** C7. On a postgres connection where the driver raises
    [ProgrammingError], the hook returns; it has called the driver once,
    logged the warning, and disconnected itself. *)
Theorem hook_swallows_programming_error (cls : Meta)
    (connection : Connection) (w : World) :
  is_postgres connection = true →
  register_outcome connection (db_type cls) = Raise ProgrammingError →
  ∃ w',
    CompositeTypeMeta.database_connected cls connection w = (Ok tt, w')
    ∧ log w'
      = (log w
         ++ [RegisterComposite (db_type cls) (alias connection);
             LogWarning
               ("Failed to register composite %s. This might be because "
                ++ "the migration to register it has not run yet")])%list
    ∧ receivers w' = remove_receiver (db_type cls) (receivers w).
Proof.
  intros Hpg Hout. rewrite database_connected_cases. cbv zeta.
  rewrite Hpg, Hout. by eexists.
Qed.

Lemma hook_swallows_programming_error_witness :
  ∃ w',
    CompositeTypeMeta.database_connected address pg_unmigrated address_declared
    = (Ok tt, w')
    ∧ log w'
      = (log address_declared
         ++ [RegisterComposite (db_type address) (alias pg_unmigrated);
             LogWarning
               ("Failed to register composite %s. This might be because "
                ++ "the migration to register it has not run yet")])%list
    ∧ receivers w' = remove_receiver (db_type address) (receivers address_declared).
Proof.
  apply (hook_swallows_programming_error address pg_unmigrated);
    reflexivity.
Defined.

(** When the driver raises another exception than [ProgrammingError], the
    hook of [Address] stays connected, and a second connection registers
    again. *)
Lemma hook_left_connected :
  ¬ hook_disconnected_after address pg_failing address_declared
  ∧ ¬ registers_at_most_once "address" [pg_failing; pg_failing]
        address_declared.
Proof.
  split.
  - intros H. apply H. vm_compute. apply list_elem_of_here.
  - unfold registers_at_most_once. vm_compute. lia.
Qed.

(** C8, as amended. When the hook settles on a connection (the connection
    is not a postgres one, or the driver registers the type, or the driver
    raises [ProgrammingError]) it returns and is no longer connected; and
    over connections on which it settles, the driver is asked at most once
    to register the type. *)
Theorem hook_runs_once (w : World) :
  hooks_wf w →
  (∀ cls connection,
     settles (db_type cls) connection →
     (CompositeTypeMeta.database_connected cls connection w).1 = Ok tt
     ∧ hook_disconnected_after cls connection w)
  ∧ (∀ t conns,
       Forall (settles t) conns → registers_at_most_once t conns w).
Proof.
  intros Hwf. split.
  - intros cls connection Hs. unfold hook_disconnected_after.
    rewrite database_connected_cases. cbv zeta.
    assert (db_type cls ∉ (remove_receiver (db_type cls) (receivers w)).*1)
      as Hout by apply remove_receiver_notin, Hwf.
    destruct (is_postgres connection) eqn:Hpg; [|done].
    destruct Hs as [Hs|[Hs|Hs]]; [congruence| |]; by rewrite Hs.
  - intros t conns Hall. unfold registers_at_most_once.
    pose proof (open_connections_potential t conns w Hwf Hall) as Hpot.
    unfold potential in Hpot. repeat case_bool_decide; lia.
Qed.

Lemma hook_runs_once_witness :
  ((CompositeTypeMeta.database_connected address pg_unmigrated
      address_declared).1 = Ok tt
   ∧ hook_disconnected_after address pg_unmigrated address_declared)
  ∧ registers_at_most_once "address" [sqlite; pg_unmigrated; pg_ready]
      address_declared.
Proof.
  destruct (hook_runs_once address_declared address_declared_wf) as [Ha Hb].
  split.
  - apply Ha. right. right. reflexivity.
  - apply Hb.
    apply Forall_cons_2; [left; reflexivity|].
    apply Forall_cons_2; [right; right; reflexivity|].
    apply Forall_cons_2; [right; left; reflexivity|].
    apply Forall_nil_2.
Defined.

(** ** Further properties of the conversions *)

(** X1. [__to_dict__] and [__to_tuple__] prepare the same values: the
    dictionary pairs the field names, in declaration order, with the
    entries of the storage tuple, and raises what the tuple raises. *)
Theorem to_dict_pairs_to_tuple (_meta : Meta) (self : gmap string Value) :
  CompositeType.__to_dict__ _meta self
  = zip (fields _meta).*1 <$> CompositeType.__to_tuple__ _meta self.
Proof.
  unfold CompositeType.__to_dict__, CompositeType.__to_tuple__,
    to_tuple_of, meta_fields.
  destruct (self !! "_meta"); [done|]. simpl.
  induction (fields _meta) as [|[name field] fs IH]; [done|].
  simpl. rewrite IH.
  destruct (getattr self name) as [v|e]; [|done]. simpl.
  destruct (get_prep_value field v) as [x|e]; [|done]. simpl.
  match goal with |- context [zip _ <$> ?m] => destruct m end; reflexivity.
Qed.

(** X2. A value prepared by a composite field is left as it is when it is
    prepared again. *)
Theorem get_prep_value_prepared (Meta : Meta) (value x : Value) :
  BaseField.get_prep_value Meta value = Ok x →
  BaseField.get_prep_value Meta x = Ok x.
Proof.
  unfold BaseField.get_prep_value. destruct Meta as [m t fs].
  destruct value as [| | | |d|cls self]; simpl; try by intros [= <-].
  - destruct (mapM _ fs); [|done]. by intros [= <-].
  - destruct (String.eqb cls m) eqn:Heq.
    + destruct (self !! "__to_tuple__"); [done|].
      destruct (to_tuple_of _ fs self); [|done]. by intros [= <-].
    + intros [= <-]. simpl. by rewrite Heq.
Qed.

Lemma get_prep_value_prepared_witness :
  BaseField.get_prep_value address
    (VTuple [VStr "Main St"; VStr "Springfield"])
  = Ok (VTuple [VStr "Main St"; VStr "Springfield"]).
Proof.
  apply (get_prep_value_prepared address (VInst "Address" main_st)).
  vm_compute. reflexivity.
Defined.

(** X3. On a mapping, a composite field looks at the declared field names
    only: two mappings that agree on them are prepared alike, whatever
    other keys they hold. *)
Theorem get_prep_value_field_names_only (Meta : Meta)
    (d1 d2 : gmap string Value) :
  (∀ name, name ∈ (fields Meta).*1 → d1 !! name = d2 !! name) →
  BaseField.get_prep_value Meta (VDict d1)
  = BaseField.get_prep_value Meta (VDict d2).
Proof.
  intros Hagree. unfold BaseField.get_prep_value.
  destruct Meta as [m t fs]. simpl in *. f_equal.
  apply mapM_result_ext, Forall_forall. intros [name field] Hin.
  rewrite Hagree; [done|].
  apply list_elem_of_fmap. by exists (name, field).
Qed.

Lemma get_prep_value_field_names_only_witness :
  BaseField.get_prep_value address (VDict main_st)
  = BaseField.get_prep_value address
      (VDict (<["zip" := VInt 12345]> main_st)).
Proof.
  apply (get_prep_value_field_names_only address).
  intros name Hin. rewrite lookup_insert_ne; [done|].
  intros <-. revert Hin. apply (bool_decide_unpack _). vm_compute. reflexivity.
Defined.





(** ** Further properties of the metaclass *)





(** X8. A class statement that declares a type returns the class, makes no
    call to the database, and leaves a hook connected under the database
    type name: the hook of this class when none was connected under that
    name, and the hooks as they were otherwise. *)
Theorem class_statement_connects_hook (name : string)
    (attrs : list (string * ClassAttr)) (_meta : Meta) (w : World) :
  CompositeTypeMeta.__new__ name attrs = Ok (DeclaredType _meta) →
  ∃ w',
    class_statement name attrs w = (Ok (DeclaredType _meta), w')
    ∧ log w' = log w
    ∧ db_type _meta ∈ (receivers w').*1
    ∧ receivers w'
      = if bool_decide (db_type _meta ∈ (receivers w).*1) then receivers w
        else (receivers w ++ [(db_type _meta, _meta)])%list.
Proof.
  intros Hnew. unfold class_statement, lift, mbind, Py_bind. rewrite Hnew.
  assert (String.eqb name "CompositeType" = false) as Hname.
  { unfold CompositeTypeMeta.__new__ in Hnew.
    by destruct (String.eqb name "CompositeType"). }
  unfold CompositeTypeMeta.__init__, connection_created_connect.
  rewrite Hname. case_bool_decide as Hin; simpl.
  - by exists w.
  - eexists. split; [done|]. simpl. split; [done|]. split; [|done].
    rewrite fmap_app. apply elem_of_app. right. apply list_elem_of_here.
Qed.

Lemma class_statement_connects_hook_witness :
  ∃ w',
    class_statement "Address" address_body fresh_process
    = (Ok (DeclaredType
             (Build_Meta "Address" "address" (declared_fields address_body))),
       w')
    ∧ log w' = log fresh_process
    ∧ db_type (Build_Meta "Address" "address" (declared_fields address_body))
      ∈ (receivers w').*1
    ∧ receivers w'
      = if bool_decide
             (db_type (Build_Meta "Address" "address"
                                  (declared_fields address_body))
              ∈ (receivers fresh_process).*1)
        then receivers fresh_process
        else (receivers fresh_process
              ++ [(db_type (Build_Meta "Address" "address"
                                       (declared_fields address_body)),
                   Build_Meta "Address" "address"
                              (declared_fields address_body))])%list.
Proof.
  apply class_statement_connects_hook. reflexivity.
Defined.

Lemma new_fields_NoDup_witness :
  NoDup (fields (Build_Meta "Address" "address"
                            (declared_fields address_body))).*1.
Proof.
  apply (new_fields_NoDup "Address" address_body).
  - apply (bool_decide_unpack _). vm_compute. reflexivity.
  - reflexivity.
Defined.

(** ** Further properties of the hook and of the migration *)

Lemma hook_settles (cls : Meta) (connection : Connection) (w : World) :
  settles (db_type cls) connection →
  ∃ w',
    CompositeTypeMeta.database_connected cls connection w = (Ok tt, w')
    ∧ receivers w' = remove_receiver (db_type cls) (receivers w)
    ∧ (is_postgres connection = false →
       w' = (connection_created_disconnect (db_type cls) w).2).
Proof.
  intros Hs. rewrite database_connected_cases. cbv zeta.
  destruct (is_postgres connection) eqn:Hpg.
  - destruct Hs as [Hs|[Hs|Hs]]; [congruence| |]; rewrite Hs; by eexists.
  - by eexists.
Qed.

Lemma hooks_settle_loop (connection : Connection)
    (rs : list (string * Meta)) :
  ∀ w,
    receivers w = rs →
    Forall (λ r, r.1 = db_type r.2) rs →
    Forall (λ r, settles r.1 connection) rs →
    ∃ w',
      for_each rs
        (λ '(_, cls), CompositeTypeMeta.database_connected cls connection) w
      = (Ok tt, w')
      ∧ receivers w' = []
      ∧ (is_postgres connection = false → w' = without_hooks w).
Proof.
  induction rs as [|[uid cls] rs IH]; intros w Hrs Hwf Hall; simpl.
  { exists w. split; [done|]. split; [done|]. intros _.
    destruct w. simpl in *. by subst. }
  apply Forall_cons in Hwf as [Huid Hwf].
  apply Forall_cons in Hall as [Hs Hall]. simpl in *. subst uid.
  destruct (hook_settles cls connection w Hs) as (w1 & Hrun & Hrs1 & Hpg1).
  unfold mbind, Py_bind. rewrite Hrun.
  rewrite Hrs in Hrs1. simpl in Hrs1. rewrite String.eqb_refl in Hrs1.
  destruct (IH w1 Hrs1 Hwf Hall) as (w' & -> & Hnil & Hpg).
  exists w'. split; [done|]. split; [done|].
  intros Hno. rewrite (Hpg Hno), (Hpg1 Hno). reflexivity.
Qed.

(** X10. When every connected hook settles on a connection, sending
    [connection_created] for it returns and leaves no hook connected. *)
Theorem send_disconnects_all (connection : Connection) (w : World) :
  hooks_wf w →
  Forall (λ r, settles r.1 connection) (receivers w) →
  ∃ w', connection_created_send connection w = (Ok tt, w')
        ∧ receivers w' = [].
Proof.
  intros [_ Hwf] Hall. unfold connection_created_send.
  destruct (hooks_settle_loop connection (receivers w) w eq_refl Hwf Hall)
    as (w' & Hrun & Hnil & _).
  by exists w'.
Qed.

Lemma send_disconnects_all_witness :
  ∃ w', connection_created_send pg_unmigrated address_declared = (Ok tt, w')
        ∧ receivers w' = [].
Proof.
  apply send_disconnects_all.
  - apply address_declared_wf.
  - apply Forall_cons_2; [right; right; reflexivity|]. apply Forall_nil_2.
Defined.

Lemma open_connections_without_hooks (conns : list Connection) (w : World) :
  receivers w = [] → open_connections conns w = w.
Proof.
  intros Hnil. induction conns as [|connection conns IH]; [done|].
  simpl. unfold connection_created_send at 1. rewrite Hnil. simpl.
  apply IH.
Qed.

(** X11. A first connection of another backend disconnects every hook
    without a call to the driver, and no connection opened afterwards
    makes a hook register its type. *)
Theorem other_backend_disables_hooks (connection : Connection) (w : World) :
  hooks_wf w →
  is_postgres connection = false →
  connection_created_send connection w = (Ok tt, without_hooks w)
  ∧ ∀ conns, open_connections (connection :: conns) w = without_hooks w.
Proof.
  intros [_ Hwf] Hpg.
  assert (Forall (λ r : string * Meta, settles r.1 connection) (receivers w))
    as Hall.
  { apply Forall_forall. intros r _. by left. }
  unfold connection_created_send.
  destruct (hooks_settle_loop connection (receivers w) w eq_refl Hwf Hall)
    as (w' & Hrun & _ & Hw').
  rewrite (Hw' Hpg) in Hrun. split; [done|].
  intros conns. simpl. unfold connection_created_send at 1.
  rewrite Hrun. simpl. by apply open_connections_without_hooks.
Qed.

Lemma other_backend_disables_hooks_witness :
  connection_created_send sqlite address_declared
  = (Ok tt, without_hooks address_declared)
  ∧ ∀ conns,
      open_connections (sqlite :: conns) address_declared
      = without_hooks address_declared.
Proof.
  apply other_backend_disables_hooks.
  - apply address_declared_wf.
  - reflexivity.
Defined.

Lemma field_types_need_postgres (connection : Connection)
    (fs : list (string * Field)) (name : string) (inner : Meta) :
  is_postgres connection = false →
  (name, CompositeField inner) ∈ fs →
  mapM (λ '(name, field),
          t ← field_db_type field connection; Ok (name ++ " " ++ t)) fs
  = Raise (RuntimeError "Composite types are only available for postgres").
Proof.
  intros Hpg. induction fs as [|[n f] fs IH]; intros Hin.
  { by apply elem_of_nil in Hin. }
  simpl. destruct f as [column prep|m]; simpl.
  - apply elem_of_cons in Hin as [[=]|Hin]. by rewrite IH.
  - unfold BaseField.db_type. by rewrite Hpg.
Qed.

(** X12. On a connection of another backend, the forward migration of a
    type with a field of a composite type raises [RuntimeError] before any
    statement is executed: nothing is sent to the database, the driver or
    the signal. *)
Theorem forwards_needs_postgres (outer inner : Meta)
    (schema_editor : SchemaEditor) (w : World) (name : string) :
  is_postgres (connection schema_editor) = false →
  (name, CompositeField inner) ∈ fields outer →
  BaseOperation.database_forwards outer schema_editor w
  = (Raise (RuntimeError "Composite types are only available for postgres"),
     w).
Proof.
  intros Hpg Hin.
  assert (BaseOperation.create_type_sql outer (connection schema_editor)
          = Raise (RuntimeError
                     "Composite types are only available for postgres"))
    as Hsql.
  { unfold BaseOperation.create_type_sql.
    by rewrite (field_types_need_postgres _ _ name inner Hpg Hin). }
  unfold BaseOperation.database_forwards, lift, mbind, Py_bind.
  by rewrite Hsql.
Qed.

Lemma forwards_needs_postgres_witness :
  BaseOperation.database_forwards person (editor sqlite) fresh_process
  = (Raise (RuntimeError "Composite types are only available for postgres"),
     fresh_process).
Proof.
  apply (forwards_needs_postgres person address (editor sqlite)
           fresh_process "home").
  - reflexivity.
  - apply list_elem_of_further, list_elem_of_here.
Defined.
